(** * Time-domain channel generation (sionna.channel.generate_time_channel)

    A shallow embedding of the [GenerateTimeChannel] class of
    [sionna/channel/generate_time_channel.py] and of the helper
    [cir_to_time_channel] it imports from [sionna.channel.utils].

    Numbers.  Python floats and TensorFlow real/complex scalars are idealised
    as the real numbers [R] of the Standard Library and as pairs of reals;
    Python integers are [Z].  Rounding is therefore outside the model: every
    equation below is an equation between exact values.

    Tensors.  A dense tensor is a record made of its axis lengths and of the
    map from an index to the entry stored there.  Entries are only meaningful
    at indices inside the axis lengths. *)

From Stdlib Require Import Reals ZArith List Lia Lra Bool.
Import ListNotations.

Local Open Scope R_scope.

(** ** Complex scalars *)

Module Cplx.

Definition C : Type := (R * R)%type.

Definition Re (z : C) : R := fst z.
Definition Im (z : C) : R := snd z.

(** [tf.complex(x, 0.)] *)
Definition of_real (x : R) : C := (x, 0).

Definition zero : C := of_real 0.
Definition one : C := of_real 1.

Definition add (z w : C) : C := (Re z + Re w, Im z + Im w).

Definition mul (z w : C) : C :=
  (Re z * Re w - Im z * Im w, Re z * Im w + Im z * Re w).

(** [tf.abs] on a complex entry. *)
Definition abs (z : C) : R := sqrt (Re z * Re z + Im z * Im z).

(** [tf.square(tf.abs(z))] *)
Definition abs2 (z : C) : R := Rsqr (abs z).

(** Modelled from the spec: the guarded division of the normalization step,
    which is part of [cir_to_time_channel].  A complex entry is divided by a
    real denominator; where the denominator is zero the result is zero, so
    that no entry is ever the outcome of a division by zero. *)
Definition divide_no_nan (z : C) (s : R) : C :=
  if Req_EM_T s 0 then zero else (Re z / s, Im z / s).

Lemma eq_intro (z w : C) : Re z = Re w -> Im z = Im w -> z = w.
Proof. destruct z, w; simpl; intros; subst; reflexivity. Qed.

Lemma add_zero_l (z : C) : add zero z = z.
Proof. apply eq_intro; simpl; ring. Qed.

Lemma add_zero_r (z : C) : add z zero = z.
Proof. apply eq_intro; simpl; ring. Qed.

Lemma mul_zero_l (z : C) : mul zero z = zero.
Proof. apply eq_intro; simpl; ring. Qed.

Lemma mul_zero_r (z : C) : mul z zero = zero.
Proof. apply eq_intro; simpl; ring. Qed.

Lemma mul_one_l (z : C) : mul one z = z.
Proof. apply eq_intro; simpl; ring. Qed.

Lemma mul_one_r (z : C) : mul z one = z.
Proof. apply eq_intro; simpl; ring. Qed.

Lemma mul_assoc (x y z : C) : mul x (mul y z) = mul (mul x y) z.
Proof. apply eq_intro; simpl; ring. Qed.

Lemma mul_add_distr_l (x y z : C) : mul x (add y z) = add (mul x y) (mul x z).
Proof. apply eq_intro; simpl; ring. Qed.

Lemma abs2_eq (z : C) : abs2 z = Re z * Re z + Im z * Im z.
Proof.
  unfold abs2, abs. rewrite Rsqr_sqrt; [reflexivity|].
  assert (0 <= Re z * Re z) by (apply Rle_0_sqr).
  assert (0 <= Im z * Im z) by (apply Rle_0_sqr).
  lra.
Qed.

Lemma abs2_nonneg (z : C) : 0 <= abs2 z.
Proof. unfold abs2. apply Rle_0_sqr. Qed.

Lemma abs2_zero : abs2 zero = 0.
Proof. rewrite abs2_eq. simpl. ring. Qed.

Lemma divide_no_nan_zero (z : C) : divide_no_nan z 0 = zero.
Proof. unfold divide_no_nan. destruct (Req_EM_T 0 0); [reflexivity|lra]. Qed.

Lemma divide_no_nan_one (z : C) : divide_no_nan z 1 = z.
Proof.
  unfold divide_no_nan. destruct (Req_EM_T 1 0); [lra|].
  apply eq_intro; simpl; field.
Qed.

Lemma divide_no_nan_nonzero (z : C) (s : R) :
  s <> 0 -> divide_no_nan z s = (Re z / s, Im z / s).
Proof. intros Hs. unfold divide_no_nan. destruct (Req_EM_T s 0); [contradiction|reflexivity]. Qed.

Lemma abs2_divide (z : C) (s : R) :
  s <> 0 -> abs2 (divide_no_nan z s) = abs2 z / (s * s).
Proof.
  intros Hs. rewrite divide_no_nan_nonzero by assumption.
  rewrite !abs2_eq. simpl. field. assumption.
Qed.

End Cplx.

Abbreviation C := Cplx.C.

(** ** The sinc kernel

    [tf.experimental.numpy.sinc]: [sin (pi x) / (pi x)], and [1] at [0]. *)

Definition sinc (x : R) : R :=
  if Req_EM_T x 0 then 1 else sin (PI * x) / (PI * x).

Lemma sinc_0 : sinc 0 = 1.
Proof. unfold sinc. destruct (Req_EM_T 0 0); [reflexivity|lra]. Qed.

Lemma sinc_integer (k : Z) : k <> 0%Z -> sinc (IZR k) = 0.
Proof.
  intros Hk. unfold sinc.
  destruct (Req_EM_T (IZR k) 0) as [E|E].
  - exfalso. apply Hk. apply eq_IZR. exact E.
  - assert (Hs : sin (PI * IZR k) = 0).
    { apply sin_eq_0_1. exists k. ring. }
    rewrite Hs. unfold Rdiv. ring.
Qed.

(** ** Finite sums

    [tf.reduce_sum] along one axis of length [n]. *)

Fixpoint Rsum (n : nat) (f : nat -> R) : R :=
  match n with
  | O => 0
  | S k => Rsum k f + f k
  end.

Fixpoint Csum (n : nat) (f : nat -> C) : C :=
  match n with
  | O => Cplx.zero
  | S k => Cplx.add (Csum k f) (f k)
  end.

Lemma Rsum_ext (n : nat) (f g : nat -> R) :
  (forall i, (i < n)%nat -> f i = g i) -> Rsum n f = Rsum n g.
Proof.
  induction n as [|n IH]; intros H; simpl; [reflexivity|].
  rewrite IH by (intros i Hi; apply H; lia).
  rewrite (H n) by lia. reflexivity.
Qed.

Lemma Rsum_zero (n : nat) (f : nat -> R) :
  (forall i, (i < n)%nat -> f i = 0) -> Rsum n f = 0.
Proof.
  induction n as [|n IH]; intros H; simpl; [reflexivity|].
  rewrite IH by (intros i Hi; apply H; lia).
  rewrite (H n) by lia. ring.
Qed.

Lemma Rsum_scal (n : nat) (c : R) (f : nat -> R) :
  Rsum n (fun i => c * f i) = c * Rsum n f.
Proof. induction n as [|n IH]; simpl; [ring|]. rewrite IH. ring. Qed.

Lemma Rsum_const (n : nat) (c : R) : Rsum n (fun _ => c) = INR n * c.
Proof.
  induction n as [|n IH]; [simpl; ring|].
  rewrite S_INR. simpl. rewrite IH. ring.
Qed.

Lemma Rsum_nonneg (n : nat) (f : nat -> R) :
  (forall i, (i < n)%nat -> 0 <= f i) -> 0 <= Rsum n f.
Proof.
  induction n as [|n IH]; intros H; simpl; [lra|].
  assert (0 <= Rsum n f) by (apply IH; intros i Hi; apply H; lia).
  assert (0 <= f n) by (apply H; lia).
  lra.
Qed.

(** A sum whose only non-zero term sits at index [j]. *)
Lemma Rsum_single (n j : nat) (f : nat -> R) :
  (j < n)%nat -> (forall i, (i < n)%nat -> i <> j -> f i = 0) ->
  Rsum n f = f j.
Proof.
  induction n as [|n IH]; intros Hj H; [lia|]. simpl.
  destruct (Nat.eq_dec j n) as [->|Hne].
  - rewrite Rsum_zero by (intros i Hi; apply H; lia). ring.
  - rewrite IH by (try lia; intros i Hi Hij; apply H; lia).
    rewrite (H n) by lia. ring.
Qed.

Lemma Csum_ext (n : nat) (f g : nat -> C) :
  (forall i, (i < n)%nat -> f i = g i) -> Csum n f = Csum n g.
Proof.
  induction n as [|n IH]; intros H; simpl; [reflexivity|].
  rewrite IH by (intros i Hi; apply H; lia).
  rewrite (H n) by lia. reflexivity.
Qed.

Lemma Csum_zero (n : nat) (f : nat -> C) :
  (forall i, (i < n)%nat -> f i = Cplx.zero) -> Csum n f = Cplx.zero.
Proof.
  induction n as [|n IH]; intros H; simpl; [reflexivity|].
  rewrite IH by (intros i Hi; apply H; lia).
  rewrite (H n) by lia. apply Cplx.add_zero_l.
Qed.

Lemma Csum_mul_l (n : nat) (c : C) (f : nat -> C) :
  Csum n (fun i => Cplx.mul c (f i)) = Cplx.mul c (Csum n f).
Proof.
  induction n as [|n IH]; simpl.
  - symmetry. apply Cplx.mul_zero_r.
  - rewrite IH. symmetry. apply Cplx.mul_add_distr_l.
Qed.

(** ** Tensors

    The five leading axes shared by the sampler's output and by the returned
    taps: batch, receiver, receive antenna, transmitter, transmit antenna. *)

Record Dims : Type := mkDims {
  num_batch : nat;
  num_rx : nat;
  num_rx_ant : nat;
  num_tx : nat;
  num_tx_ant : nat
}.

(** One antenna pair (link) of a batch example. *)
Record Link : Type := mkLink {
  rx : nat;
  rx_ant : nat;
  tx : nat;
  tx_ant : nat
}.

Definition in_dims (d : Dims) (k : Link) : Prop :=
  (rx k < num_rx d)%nat /\ (rx_ant k < num_rx_ant d)%nat /\
  (tx k < num_tx d)%nat /\ (tx_ant k < num_tx_ant d)%nat.

(** Path gains [a]:
    [[batch, num_rx, num_rx_ant, num_tx, num_tx_ant, num_paths, num_time_steps]],
    complex. *)
Record PathGains : Type := mkPathGains {
  a_dims : Dims;
  a_paths : nat;
  a_time : nat;
  a_at : nat -> Link -> nat -> nat -> C
}.

(** Path delays [tau]:
    [[batch, num_rx, num_rx_ant, num_tx, num_tx_ant, num_paths]], real.  Delays
    given per receiver and transmitter only are the case of a [tau_at] that
    ignores the two antenna indices of the link. *)
Record PathDelays : Type := mkPathDelays {
  tau_dims : Dims;
  tau_paths : nat;
  tau_at : nat -> Link -> nat -> R
}.

(** Channel taps [h_time]:
    [[batch, num_rx, num_rx_ant, num_tx, num_tx_ant, time step, lag]], complex. *)
Record TimeChannel : Type := mkTimeChannel {
  h_dims : Dims;
  h_time : nat;
  h_lags : nat;
  h_at : nat -> Link -> nat -> nat -> C
}.

(** The axis lengths of the returned tensor, in axis order. *)
Definition shape (h : TimeChannel) : list nat :=
  [ num_batch (h_dims h); num_rx (h_dims h); num_rx_ant (h_dims h);
    num_tx (h_dims h); num_tx_ant (h_dims h); h_time h; h_lags h ].

(** Sum over all antenna pairs of one batch example. *)
Definition sum_links (d : Dims) (f : Link -> R) : R :=
  Rsum (num_rx d) (fun r =>
  Rsum (num_rx_ant d) (fun ra =>
  Rsum (num_tx d) (fun t =>
  Rsum (num_tx_ant d) (fun ta => f (mkLink r ra t ta))))).

Lemma sum_links_ext (d : Dims) (f g : Link -> R) :
  (forall k, in_dims d k -> f k = g k) -> sum_links d f = sum_links d g.
Proof.
  intros H. unfold sum_links.
  apply Rsum_ext; intros r Hr. apply Rsum_ext; intros ra Hra.
  apply Rsum_ext; intros t Ht. apply Rsum_ext; intros ta Hta.
  apply H. unfold in_dims; simpl. auto.
Qed.

Lemma sum_links_scal (d : Dims) (c : R) (f : Link -> R) :
  sum_links d (fun k => c * f k) = c * sum_links d f.
Proof.
  unfold sum_links.
  rewrite <- Rsum_scal. apply Rsum_ext; intros r _.
  rewrite <- Rsum_scal. apply Rsum_ext; intros ra _.
  rewrite <- Rsum_scal. apply Rsum_ext; intros t _.
  rewrite <- Rsum_scal. reflexivity.
Qed.

Lemma sum_links_zero (d : Dims) (f : Link -> R) :
  (forall k, in_dims d k -> f k = 0) -> sum_links d f = 0.
Proof.
  intros H. unfold sum_links.
  apply Rsum_zero; intros r Hr. apply Rsum_zero; intros ra Hra.
  apply Rsum_zero; intros t Ht. apply Rsum_zero; intros ta Hta.
  apply H. unfold in_dims; simpl. auto.
Qed.

Lemma sum_links_nonneg (d : Dims) (f : Link -> R) :
  (forall k, in_dims d k -> 0 <= f k) -> 0 <= sum_links d f.
Proof.
  intros H. unfold sum_links.
  apply Rsum_nonneg; intros r Hr. apply Rsum_nonneg; intros ra Hra.
  apply Rsum_nonneg; intros t Ht. apply Rsum_nonneg; intros ta Hta.
  apply H. unfold in_dims; simpl. auto.
Qed.

(** ** The helper [cir_to_time_channel] of [sionna.channel.utils] *)

Module Utils.

(** The lags [l_min, ..., l_max]: the lag stored at lag index [i]. *)
Definition lag_of (l_min : Z) (i : nat) : Z := (l_min + Z.of_nat i)%Z.

(** The number of lags of the window [[l_min, l_max]]; none when it is empty. *)
Definition num_lags (l_min l_max : Z) : nat := Z.to_nat (l_max - l_min + 1).

(** Modelled from the spec: the tap of step 3 of [generate], which
    [cir_to_time_channel] computes; its source is not part of the files at
    hand.  For output time step [b] and the lag at index [i], the sum over
    all paths [m] of [gain(m, b) * sinc(l - bandwidth * delay(m))]. *)
Definition tap (bandwidth : R) (a : PathGains) (tau : PathDelays) (l_min : Z)
    (n : nat) (k : Link) (b i : nat) : C :=
  Csum (a_paths a) (fun m =>
    Cplx.mul (a_at a n k m b)
      (Cplx.of_real (sinc (IZR (lag_of l_min i) - bandwidth * tau_at tau n k m)))).

(** Modelled from the spec: the energy of step 4 of [generate], which
    [cir_to_time_channel] computes; its source is not part of the files at
    hand.  The helper normalizes each link on its own: for batch example [n]
    and the receiver and the transmitter of [k], the energy is the mean, over
    the receive antennas, the transmit antennas and the output time steps, of
    the squared magnitudes of the taps summed across all lags.  (Step 4
    speaks of one energy per batch example, summed over all antenna pairs;
    with several antennas that is not the denominator the helper divides
    by.) *)
Definition energy (h : TimeChannel) (n : nat) (k : Link) : R :=
  Rsum (num_rx_ant (h_dims h)) (fun ra =>
    Rsum (num_tx_ant (h_dims h)) (fun ta =>
      Rsum (h_time h) (fun b =>
        Rsum (h_lags h) (fun i =>
          Cplx.abs2 (h_at h n (mkLink (rx k) ra (tx k) ta) b i)))))
  / (INR (num_rx_ant (h_dims h)) * INR (num_tx_ant (h_dims h)) * INR (h_time h)).

(** Modelled from the spec: the rescaling of step 4.  Every tap of a link is
    divided by the square root of that link's energy; the division is
    guarded, a zero denominator gives a zero tap. *)
Definition normalize (h : TimeChannel) : TimeChannel :=
  {| h_dims := h_dims h;
     h_time := h_time h;
     h_lags := h_lags h;
     h_at := fun n k b i =>
       Cplx.divide_no_nan (h_at h n k b i) (sqrt (energy h n k)) |}.

(** Modelled from the spec: [cir_to_time_channel(bandwidth, a, tau, l_min,
    l_max, normalize)], steps 3 to 5 of [generate].  The leading axes and the
    time axis are those of [a]; the lag axis holds [l_min, ..., l_max]. *)
Definition cir_to_time_channel (bandwidth : R) (a : PathGains)
    (tau : PathDelays) (l_min l_max : Z) (normalize_flag : bool) : TimeChannel :=
  let hm :=
    {| h_dims := a_dims a;
       h_time := a_time a;
       h_lags := num_lags l_min l_max;
       h_at := tap bandwidth a tau l_min |} in
  if normalize_flag then normalize hm else hm.

End Utils.

(** ** Effects

    The channel model is a callable with a state of its own (its random
    generator, its topology).  A computation threads a state and either
    returns a value or raises. *)

Inductive Exception : Type :=
  | ConfigurationError
  | ShapeMismatchError
  | ModelError.

Inductive Result (A : Type) : Type :=
  | Ok (x : A)
  | Raise (e : Exception).

Arguments Ok {A} x.
Arguments Raise {A} e.

Definition M (St A : Type) : Type := St -> Result A * St.

Definition ret {St A : Type} (x : A) : M St A := fun s => (Ok x, s).

Definition bind {St A B : Type} (m : M St A) (f : A -> M St B) : M St B :=
  fun s =>
    match m s with
    | (Ok x, s') => f x s'
    | (Raise e, s') => (Raise e, s')
    end.

Declare Scope monad_scope.
Delimit Scope monad_scope with monad.
Notation "x <- m ;; f" := (bind m (fun x => f))
  (at level 61, m at next level, right associativity) : monad_scope.
Notation "' p <- m ;; f" := (bind m (fun x => match x with p => f end))
  (at level 61, p pattern, m at next level, right associativity) : monad_scope.

(** What a run of the program did, in the order it did it. *)
Inductive Event : Type :=
  | Sampled (batch_size : option Z) (num_time_steps : Z) (bandwidth : R)
  | TapsComputed (bandwidth : R) (a : PathGains) (tau : PathDelays)
      (l_min l_max : Z) (normalize : bool).

Definition is_sampled (e : Event) : bool :=
  match e with
  | Sampled _ _ _ => true
  | TapsComputed _ _ _ _ _ _ => false
  end.

Section Generator.

(** The state of the channel model. *)
Variable S : Type.

(** [channel_model(batch_size, num_time_steps, sampling_frequency)] returns
    the pair [(a, tau)] or raises. *)
Definition ChannelModel : Type :=
  option Z -> Z -> R -> S -> Result (PathGains * PathDelays) * S.

Record World : Type := mkWorld {
  model_state : S;
  trace : list Event
}.

Definition log (e : Event) (w : World) : World :=
  {| model_state := model_state w; trace := trace w ++ [e] |}.

(** The object, as [__init__] fills it. *)
Record GenerateTimeChannel : Type := mkGenerateTimeChannel {
  _cir_sampler : ChannelModel;
  _l_min : Z;
  _l_max : Z;
  _l_tot : Z;
  _bandwidth : R;
  _num_time_steps : Z;
  _normalize_channel : bool
}.

(** The state a method runs in: the object and what surrounds it. *)
Record State : Type := mkState {
  self : GenerateTimeChannel;
  world : World
}.

(** Reading the object. *)
Definition this : M State GenerateTimeChannel := fun st => (Ok (self st), st).

(** A call of the channel model from inside a method. *)
Definition call_sampler (f : ChannelModel) (batch_size : option Z)
    (num_time_steps : Z) (bandwidth : R) : M State (PathGains * PathDelays) :=
  fun st =>
    let w := log (Sampled batch_size num_time_steps bandwidth) (world st) in
    let (r, s') := f batch_size num_time_steps bandwidth (model_state w) in
    (r, {| self := self st;
           world := {| model_state := s'; trace := trace w |} |}).

(** A call of the imported helper from inside a method. *)
Definition call_cir_to_time_channel (bandwidth : R) (a : PathGains)
    (tau : PathDelays) (l_min l_max : Z) (normalize : bool) : M State TimeChannel :=
  fun st =>
    (Ok (Utils.cir_to_time_channel bandwidth a tau l_min l_max normalize),
     {| self := self st;
        world := log (TapsComputed bandwidth a tau l_min l_max normalize) (world st) |}).

Local Open Scope monad_scope.

(** [GenerateTimeChannel(channel_model, bandwidth, num_time_samples, l_min,
    l_max, normalize_channel)]: the object [__init__] leaves behind. *)
Definition __init__ (channel_model : ChannelModel) (bandwidth : R)
    (num_time_samples l_min l_max : Z) (normalize_channel : bool)
  : M World GenerateTimeChannel :=
  ret {| _cir_sampler := channel_model;
         _l_min := l_min;
         _l_max := l_max;
         _l_tot := (l_max - l_min + 1)%Z;
         _bandwidth := bandwidth;
         _num_time_steps := num_time_samples;
         _normalize_channel := normalize_channel |}.

Definition __call__ (batch_size : option Z) : M State TimeChannel :=
  self <- this ;;
  ' (h, tau) <- call_sampler (_cir_sampler self) batch_size
                  (_num_time_steps self + _l_tot self - 1)%Z
                  (_bandwidth self) ;;
  hm <- call_cir_to_time_channel (_bandwidth self) h tau (_l_min self)
          (_l_max self) (_normalize_channel self) ;;
  ret hm.

End Generator.

Arguments mkWorld {S} _ _.
Arguments model_state {S} _.
Arguments trace {S} _.
Arguments log {S} _ _.
Arguments mkGenerateTimeChannel {S} _ _ _ _ _ _ _.
Arguments _cir_sampler {S} _.
Arguments _l_min {S} _.
Arguments _l_max {S} _.
Arguments _l_tot {S} _.
Arguments _bandwidth {S} _.
Arguments _num_time_steps {S} _.
Arguments _normalize_channel {S} _.
Arguments mkState {S} _ _.
Arguments self {S} _.
Arguments world {S} _.
Arguments this {S} _.
Arguments call_sampler {S} _ _ _ _ _.
Arguments call_cir_to_time_channel {S} _ _ _ _ _ _ _.
Arguments __init__ {S} _ _ _ _ _ _ _.
Arguments __call__ {S} _ _.

(** The number of time steps [__call__] asks the channel model for. *)
Definition requested_time_steps {S : Type} (g : GenerateTimeChannel S) : Z :=
  (_num_time_steps g + _l_tot g - 1)%Z.

(** The channel model's answer to the call [__call__] makes in state [st]. *)
Definition sampler_answer {S : Type} (batch_size : option Z) (st : State S)
  : Result (PathGains * PathDelays) * S :=
  _cir_sampler (self st) batch_size (requested_time_steps (self st))
    (_bandwidth (self st)) (model_state (world st)).

(** A generator's life: one call after the other, whatever each call raises
    being caught by the caller. *)
Fixpoint run_calls {S : Type} (batch_sizes : list (option Z)) (st : State S)
  : list (Result TimeChannel) * State S :=
  match batch_sizes with
  | [] => ([], st)
  | batch_size :: rest =>
      let (r, st1) := __call__ batch_size st in
      let (rs, st2) := run_calls rest st1 in
      (r :: rs, st2)
  end.

(** ** [__call__], step by step *)

Lemma call_eq {S : Type} (batch_size : option Z) (st : State S) :
  __call__ batch_size st =
  let g := self st in
  let sampled := Sampled batch_size (requested_time_steps g) (_bandwidth g) in
  match sampler_answer batch_size st with
  | (Ok (h, tau), s') =>
      (Ok (Utils.cir_to_time_channel (_bandwidth g) h tau (_l_min g) (_l_max g)
             (_normalize_channel g)),
       {| self := g;
          world := {| model_state := s';
                      trace := (trace (world st) ++ [sampled]) ++
                               [TapsComputed (_bandwidth g) h tau (_l_min g)
                                  (_l_max g) (_normalize_channel g)] |} |})
  | (Raise e, s') =>
      (Raise e,
       {| self := g;
          world := {| model_state := s';
                      trace := trace (world st) ++ [sampled] |} |})
  end.
Proof.
  unfold __call__, bind, this, call_sampler, call_cir_to_time_channel, ret,
    sampler_answer, requested_time_steps, log.
  cbn.
  destruct (_cir_sampler (self st) batch_size
              (_num_time_steps (self st) + _l_tot (self st) - 1)%Z
              (_bandwidth (self st)) (model_state (world st))) as [[[h tau]|e] s'];
    reflexivity.
Qed.

Lemma call_returns {S : Type} (batch_size : option Z) (st : State S)
    (a : PathGains) (tau : PathDelays) (s' : S) :
  sampler_answer batch_size st = (Ok (a, tau), s') ->
  fst (__call__ batch_size st) =
  Ok (Utils.cir_to_time_channel (_bandwidth (self st)) a tau (_l_min (self st))
        (_l_max (self st)) (_normalize_channel (self st))).
Proof. intros H. rewrite call_eq. cbn zeta. rewrite H. reflexivity. Qed.

Lemma call_self {S : Type} (batch_size : option Z) (st : State S) :
  self (snd (__call__ batch_size st)) = self st.
Proof.
  rewrite call_eq. cbn zeta.
  destruct (sampler_answer batch_size st) as [[[h tau]|e] s']; reflexivity.
Qed.

Lemma call_trace {S : Type} (batch_size : option Z) (st : State S) :
  exists rest,
    trace (world (snd (__call__ batch_size st))) =
    trace (world st) ++
      Sampled batch_size (requested_time_steps (self st)) (_bandwidth (self st))
      :: rest /\
    filter is_sampled rest = [].
Proof.
  rewrite call_eq. cbn zeta.
  destruct (sampler_answer batch_size st) as [[[h tau]|e] s']; cbn.
  - eexists. rewrite <- app_assoc. cbn. split; reflexivity.
  - exists []. split; reflexivity.
Qed.

(** ** [__init__], unfolded *)

Lemma init_eq {S : Type} (channel_model : ChannelModel S) (bandwidth : R)
    (num_time_samples l_min l_max : Z) (normalize_channel : bool) (w : World S) :
  __init__ channel_model bandwidth num_time_samples l_min l_max
    normalize_channel w =
  (Ok (mkGenerateTimeChannel channel_model l_min l_max (l_max - l_min + 1)%Z
         bandwidth num_time_samples normalize_channel),
   w).
Proof. reflexivity. Qed.

(** ** Channel models used as concrete inputs *)

(** One antenna pair, one path of constant gain [g] and delay [0], sampled at
    [num_time_steps] instants for each of [batch] examples. *)
Definition single_path_gains (batch : nat) (num_time_steps : nat) (g : C)
  : PathGains :=
  {| a_dims := mkDims batch 1 1 1 1;
     a_paths := 1;
     a_time := num_time_steps;
     a_at := fun _ _ _ _ => g |}.

Definition single_path_delays (batch : nat) : PathDelays :=
  {| tau_dims := mkDims batch 1 1 1 1;
     tau_paths := 1;
     tau_at := fun _ _ _ => 0 |}.

(** A channel model that answers every call with a single path of gain [g],
    sized as asked, and counts its calls. *)
Definition single_path_model (g : C) : ChannelModel nat :=
  fun batch_size num_time_steps _ calls =>
    let batch := match batch_size with
                 | Some n => Z.to_nat n
                 | None => 1%nat
                 end in
    (Ok (single_path_gains batch (Z.to_nat num_time_steps) g,
         single_path_delays batch),
     Datatypes.S calls).

Definition fresh_world : World nat := {| model_state := O; trace := [] |}.

(** The generator of the end-to-end example: [W = 1e6], four time samples,
    lags [-2 .. 2]. *)
Definition example_generator (normalize_channel : bool) : GenerateTimeChannel nat :=
  {| _cir_sampler := single_path_model Cplx.one;
     _l_min := (-2)%Z;
     _l_max := 2%Z;
     _l_tot := 5%Z;
     _bandwidth := 1000000;
     _num_time_steps := 4%Z;
     _normalize_channel := normalize_channel |}.

(** ** Construction *)

(** C2, as the spec words it, fails: [__init__] checks nothing.  A
    construction with [l_min = 1 > l_max = 0], bandwidth [-1] and no time
    sample succeeds. *)
Lemma init_accepts_invalid_configuration :
  (1 > 0)%Z /\ -1 <= 0 /\ (0 <= 0)%Z /\
  fst (__init__ (single_path_model Cplx.one) (-1) 0 1 0 false fresh_world) =
  Ok {| _cir_sampler := single_path_model Cplx.one;
        _l_min := 1%Z;
        _l_max := 0%Z;
        _l_tot := 0%Z;
        _bandwidth := -1;
        _num_time_steps := 0%Z;
        _normalize_channel := false |}.
Proof. repeat split; try lia; try lra. Qed.

(** C2, amended: construction never rejects.  For all parameters, also with
    [l_min > l_max], a non-positive bandwidth or a non-positive number of time
    samples, [__init__] returns the object holding the parameters as given,
    with [l_tot = l_max - l_min + 1], and does not call the channel model: the
    world, its trace of calls included, is left as it was. *)
Theorem init_always_succeeds (S : Type) (channel_model : ChannelModel S)
    (bandwidth : R) (num_time_samples l_min l_max : Z)
    (normalize_channel : bool) (w : World S) :
  __init__ channel_model bandwidth num_time_samples l_min l_max
    normalize_channel w =
  (Ok {| _cir_sampler := channel_model;
         _l_min := l_min;
         _l_max := l_max;
         _l_tot := (l_max - l_min + 1)%Z;
         _bandwidth := bandwidth;
         _num_time_steps := num_time_samples;
         _normalize_channel := normalize_channel |},
   w).
Proof. reflexivity. Qed.

(** ** The call of the channel model *)

(** C4: on every call, the first thing [__call__] does is to call the channel
    model, with the batch size it was given, [num_time_samples + l_tot - 1]
    time steps where [l_tot = l_max - l_min + 1], and the configured
    bandwidth; the taps are computed after that call, from what it returned,
    and not at all when it raised. *)
Theorem call_samples_first (S : Type) (channel_model : ChannelModel S)
    (bandwidth : R) (num_time_samples l_min l_max : Z)
    (normalize_channel : bool) (w : World S) (batch_size : option Z) :
  match __init__ channel_model bandwidth num_time_samples l_min l_max
          normalize_channel w with
  | (Ok g, w') =>
      let l_tot := (l_max - l_min + 1)%Z in
      let sampled :=
        Sampled batch_size (num_time_samples + l_tot - 1)%Z bandwidth in
      trace (world (snd (__call__ batch_size (mkState g w')))) =
      trace w ++ sampled ::
        match channel_model batch_size (num_time_samples + l_tot - 1)%Z
                bandwidth (model_state w) with
        | (Ok (a, tau), _) =>
            [TapsComputed bandwidth a tau l_min l_max normalize_channel]
        | (Raise _, _) => []
        end
  | (Raise _, _) => False
  end.
Proof.
  rewrite init_eq. cbn zeta.
  rewrite call_eq. unfold sampler_answer, requested_time_steps. cbn.
  destruct (channel_model batch_size
              (num_time_samples + (l_max - l_min + 1) - 1)%Z bandwidth
              (model_state w)) as [[[a tau]|e] s']; cbn.
  - rewrite <- app_assoc. reflexivity.
  - reflexivity.
Qed.

(** C10: every call of [__call__] calls the channel model exactly once and
    leaves the object as it was; over a generator's life, the calls of the
    channel model are, in order, one per call of [__call__], each with that
    call's batch size and with the same number of time steps and the same
    bandwidth. *)
Theorem call_frame (S : Type) (st : State S) :
  (forall batch_size,
     self (snd (__call__ batch_size st)) = self st /\
     exists new,
       trace (world (snd (__call__ batch_size st))) = trace (world st) ++ new /\
       length (filter is_sampled new) = 1%nat) /\
  (forall batch_sizes,
     self (snd (run_calls batch_sizes st)) = self st /\
     exists new,
       trace (world (snd (run_calls batch_sizes st))) = trace (world st) ++ new /\
       filter is_sampled new =
       map (fun batch_size =>
              Sampled batch_size
                (_num_time_steps (self st) + _l_tot (self st) - 1)%Z
                (_bandwidth (self st)))
           batch_sizes).
Proof.
  split.
  - intros batch_size. split; [apply call_self|].
    destruct (call_trace batch_size st) as [rest [Ht Hf]].
    eexists. split; [exact Ht|]. cbn. rewrite Hf. reflexivity.
  - intros batch_sizes. revert st.
    induction batch_sizes as [|batch_size rest IH]; intros st.
    + split; [reflexivity|]. exists []. cbn. rewrite app_nil_r. split; reflexivity.
    + cbn [run_calls].
      destruct (__call__ batch_size st) as [r st1] eqn:E1.
      destruct (run_calls rest st1) as [rs st2] eqn:E2.
      assert (Hs1 : self st1 = self st).
      { pose proof (call_self batch_size st) as H. rewrite E1 in H. exact H. }
      destruct (call_trace batch_size st) as [new1 [Ht1 Hf1]].
      rewrite E1 in Ht1. cbn [snd] in Ht1.
      destruct (IH st1) as [Hs2 [new2 [Ht2 Hf2]]].
      rewrite E2 in Hs2, Ht2. cbn [snd] in Hs2, Ht2. cbn [snd].
      split; [congruence|].
      eexists. split.
      * rewrite Ht2, Ht1, <- app_assoc. reflexivity.
      * cbn [app filter is_sampled map]. rewrite filter_app, Hf1, Hf2, Hs1.
        reflexivity.
Qed.

(** ** What [__call__] returns *)

(** C9: [__call__] is a function of what the channel model returns.  Two calls
    on the same object, in whatever worlds and with whatever batch sizes, in
    which the channel model returns the same [(a, tau)], both return, and
    return the same taps. *)
Theorem call_deterministic (S : Type) (g : GenerateTimeChannel S)
    (w1 w2 : World S) (batch_size1 batch_size2 : option Z)
    (a : PathGains) (tau : PathDelays) (s1 s2 : S) :
  sampler_answer batch_size1 (mkState g w1) = (Ok (a, tau), s1) ->
  sampler_answer batch_size2 (mkState g w2) = (Ok (a, tau), s2) ->
  exists hm,
    fst (__call__ batch_size1 (mkState g w1)) = Ok hm /\
    fst (__call__ batch_size2 (mkState g w2)) = Ok hm.
Proof.
  intros H1 H2. eexists. split.
  - apply (call_returns _ _ _ _ _ H1).
  - apply (call_returns _ _ _ _ _ H2).
Qed.

(** Two calls of the example generator, the second one in the world the
    first one left. *)
Lemma call_deterministic_witness :
  exists hm,
    fst (__call__ (Some 1%Z) (mkState (example_generator true) fresh_world)) = Ok hm /\
    fst (__call__ (Some 1%Z)
           (snd (__call__ (Some 1%Z)
                   (mkState (example_generator true) fresh_world)))) = Ok hm.
Proof.
  exact (call_deterministic nat (example_generator true) fresh_world
           (world (snd (__call__ (Some 1%Z)
                          (mkState (example_generator true) fresh_world))))
           (Some 1%Z) (Some 1%Z)
           (single_path_gains 1 8 Cplx.one) (single_path_delays 1) 1%nat 2%nat
           eq_refl eq_refl).
Defined.

(** C3: for a window with [l_min <= l_max] and at least one time sample, when
    the channel model returns an impulse response sampled at as many instants
    as it was asked for, [__call__] returns a tensor whose axes are, in this
    order, batch, receiver, receive antenna, transmitter, transmit antenna
    (those of the path gains), time step and lag, with
    [num_time_samples + l_max - l_min] time steps and [l_max - l_min + 1]
    lags. *)
Theorem call_shape (S : Type) (channel_model : ChannelModel S) (bandwidth : R)
    (num_time_samples l_min l_max : Z) (normalize_channel : bool)
    (w w' : World S) (g : GenerateTimeChannel S) (batch_size : option Z)
    (a : PathGains) (tau : PathDelays) (s' : S) :
  (l_min <= l_max)%Z ->
  (1 <= num_time_samples)%Z ->
  __init__ channel_model bandwidth num_time_samples l_min l_max
    normalize_channel w = (Ok g, w') ->
  sampler_answer batch_size (mkState g w') = (Ok (a, tau), s') ->
  Z.of_nat (a_time a) = requested_time_steps g ->
  exists hm,
    fst (__call__ batch_size (mkState g w')) = Ok hm /\
    shape hm =
      [ num_batch (a_dims a); num_rx (a_dims a); num_rx_ant (a_dims a);
        num_tx (a_dims a); num_tx_ant (a_dims a);
        Z.to_nat (num_time_samples + l_max - l_min);
        Z.to_nat (l_max - l_min + 1) ] /\
    Z.of_nat (h_time hm) = (num_time_samples + l_max - l_min)%Z /\
    Z.of_nat (h_lags hm) = (l_max - l_min + 1)%Z.
Proof.
  intros Hwin Hn Hinit Hans Htime.
  rewrite init_eq in Hinit. injection Hinit as Hg Hw. subst g w'.
  unfold requested_time_steps in Htime. cbn in Htime.
  eexists. split; [apply (call_returns _ _ _ _ _ Hans)|].
  assert (Ht : h_time (Utils.cir_to_time_channel bandwidth a tau l_min l_max
                         normalize_channel) = a_time a).
  { unfold Utils.cir_to_time_channel. destruct normalize_channel; reflexivity. }
  assert (Hl : h_lags (Utils.cir_to_time_channel bandwidth a tau l_min l_max
                         normalize_channel) = Utils.num_lags l_min l_max).
  { unfold Utils.cir_to_time_channel. destruct normalize_channel; reflexivity. }
  assert (Hd : h_dims (Utils.cir_to_time_channel bandwidth a tau l_min l_max
                         normalize_channel) = a_dims a).
  { unfold Utils.cir_to_time_channel. destruct normalize_channel; reflexivity. }
  cbn [_bandwidth _l_min _l_max _normalize_channel self].
  unfold shape. rewrite Ht, Hl, Hd. unfold Utils.num_lags.
  repeat split.
  - replace (a_time a) with (Z.to_nat (num_time_samples + l_max - l_min)) by lia.
    reflexivity.
  - lia.
  - lia.
Qed.

(** The end-to-end example: shape [[1, 1, 1, 1, 1, 8, 5]]. *)
Lemma call_shape_witness :
  exists hm,
    fst (__call__ (Some 1%Z) (mkState (example_generator false) fresh_world)) = Ok hm /\
    shape hm = [1; 1; 1; 1; 1; 8; 5]%nat /\
    Z.of_nat (h_time hm) = 8%Z /\
    Z.of_nat (h_lags hm) = 5%Z.
Proof.
  exact (call_shape nat (single_path_model Cplx.one) 1000000 4 (-2) 2 false
           fresh_world fresh_world (example_generator false) (Some 1%Z)
           (single_path_gains 1 8 Cplx.one) (single_path_delays 1) 1%nat
           ltac:(lia) ltac:(lia) eq_refl eq_refl eq_refl).
Defined.

(** ** The taps *)

Section Taps.

Variables (bandwidth : R) (a : PathGains) (tau : PathDelays) (l_min l_max : Z).

(** The taps before any rescaling. *)
Definition raw_taps : TimeChannel :=
  Utils.cir_to_time_channel bandwidth a tau l_min l_max false.

Lemma raw_taps_at (n : nat) (k : Link) (b i : nat) :
  h_at raw_taps n k b i = Utils.tap bandwidth a tau l_min n k b i.
Proof. reflexivity. Qed.

Lemma normalized_taps_at (n : nat) (k : Link) (b i : nat) :
  h_at (Utils.cir_to_time_channel bandwidth a tau l_min l_max true) n k b i =
  Cplx.divide_no_nan (Utils.tap bandwidth a tau l_min n k b i)
    (sqrt (Utils.energy raw_taps n k)).
Proof. reflexivity. Qed.

Lemma taps_dims (normalize : bool) :
  h_dims (Utils.cir_to_time_channel bandwidth a tau l_min l_max normalize) = a_dims a /\
  h_time (Utils.cir_to_time_channel bandwidth a tau l_min l_max normalize) = a_time a /\
  h_lags (Utils.cir_to_time_channel bandwidth a tau l_min l_max normalize) =
    Utils.num_lags l_min l_max.
Proof. destruct normalize; repeat split; reflexivity. Qed.

Lemma lag_of_index (l : Z) :
  (l_min <= l)%Z -> Utils.lag_of l_min (Z.to_nat (l - l_min)) = l.
Proof. intros H. unfold Utils.lag_of. lia. Qed.

Lemma energy_nonneg (h : TimeChannel) (n : nat) (k : Link) :
  0 <= Utils.energy h n k.
Proof.
  unfold Utils.energy.
  apply Rmult_le_pos.
  - apply Rsum_nonneg; intros ra _. apply Rsum_nonneg; intros ta _.
    apply Rsum_nonneg; intros b _. apply Rsum_nonneg; intros i _.
    apply Cplx.abs2_nonneg.
  - set (D := INR (num_rx_ant (h_dims h)) * INR (num_tx_ant (h_dims h)) *
              INR (h_time h)).
    assert (HD : 0 <= D).
    { unfold D. repeat apply Rmult_le_pos; apply pos_INR. }
    destruct (Req_dec D 0) as [E|E].
    + rewrite E, Rinv_0. lra.
    + left. apply Rinv_0_lt_compat. lra.
Qed.

(** With one path, the sum over the paths is its single term. *)
Lemma tap_one_path (n : nat) (k : Link) (b i : nat) :
  a_paths a = 1%nat ->
  Utils.tap bandwidth a tau l_min n k b i =
  Cplx.mul (a_at a n k 0%nat b)
    (Cplx.of_real (sinc (IZR (Utils.lag_of l_min i) - bandwidth * tau_at tau n k 0%nat))).
Proof.
  intros H. unfold Utils.tap. rewrite H. simpl. apply Cplx.add_zero_l.
Qed.

End Taps.

(** A generator with the single lag [0], one time sample and bandwidth [1],
    on a channel of one path of gain [gain]. *)
Definition one_tap_generator (gain : C) (normalize_channel : bool)
  : GenerateTimeChannel nat :=
  {| _cir_sampler := single_path_model gain;
     _l_min := 0%Z;
     _l_max := 0%Z;
     _l_tot := 1%Z;
     _bandwidth := 1;
     _num_time_steps := 1%Z;
     _normalize_channel := normalize_channel |}.

Definition link0 : Link := mkLink 0 0 0 0.

Lemma one_tap_raw (gain : C) (n : nat) (k : Link) (b : nat) :
  Utils.tap 1 (single_path_gains 1 1 gain) (single_path_delays 1) 0 n k b 0 = gain.
Proof.
  rewrite tap_one_path by reflexivity. cbn.
  replace (0 - 1 * 0) with 0 by ring. rewrite sinc_0.
  apply Cplx.mul_one_r.
Qed.

Lemma one_tap_energy (gain : C) (n : nat) (k : Link) :
  Utils.energy (raw_taps 1 (single_path_gains 1 1 gain) (single_path_delays 1) 0 0) n k =
  Cplx.abs2 gain.
Proof.
  unfold Utils.energy. cbn -[Utils.tap].
  change (Pos.to_nat 1) with 1%nat. cbn [Rsum].
  rewrite !one_tap_raw. field.
Qed.

(** Two paths on one antenna pair: path [m] has gain [b + m i] at instant [b]
    and delay [m / 2]. *)
Definition two_path_gains (num_time_steps : nat) : PathGains :=
  {| a_dims := mkDims 1 1 1 1 1;
     a_paths := 2;
     a_time := num_time_steps;
     a_at := fun _ _ m b => (INR b, INR m) |}.

Definition two_path_delays : PathDelays :=
  {| tau_dims := mkDims 1 1 1 1 1;
     tau_paths := 2;
     tau_at := fun _ _ m => INR m / 2 |}.

Definition two_path_model : ChannelModel nat :=
  fun _ num_time_steps _ calls =>
    (Ok (two_path_gains (Z.to_nat num_time_steps), two_path_delays),
     Datatypes.S calls).

(** Lags [-1 .. 1], two time samples, bandwidth [1], no normalization. *)
Definition two_path_generator : GenerateTimeChannel nat :=
  {| _cir_sampler := two_path_model;
     _l_min := (-1)%Z;
     _l_max := 1%Z;
     _l_tot := 3%Z;
     _bandwidth := 1;
     _num_time_steps := 2%Z;
     _normalize_channel := false |}.

(** C1, as the spec words it, fails when the channel is normalized.  On a
    channel of one path of gain [2] and delay [0], with the single lag [0],
    the sum over the paths is [2] and the tap returned is [1]. *)
Lemma returned_tap_is_not_the_sum :
  let a := single_path_gains 1 1 (2, 0) in
  let tau := single_path_delays 1 in
  exists hm,
    fst (__call__ (Some 1%Z)
           (mkState (one_tap_generator (2, 0) true) fresh_world)) = Ok hm /\
    h_at hm 0%nat link0 0%nat 0%nat = Cplx.one /\
    Csum (a_paths a) (fun m =>
      Cplx.mul (a_at a 0%nat link0 m 0%nat)
        (Cplx.of_real (sinc (IZR 0 - 1 * tau_at tau 0%nat link0 m)))) = (2, 0) /\
    Cplx.one <> (2, 0).
Proof.
  cbn zeta. eexists. split; [|split; [|split]].
  - apply (call_returns (Some 1%Z)
             (mkState (one_tap_generator (2, 0) true) fresh_world)
             (single_path_gains 1 1 (2, 0)) (single_path_delays 1) 1%nat).
    reflexivity.
  - cbn [one_tap_generator _bandwidth _l_min _l_max _normalize_channel self].
    rewrite normalized_taps_at, one_tap_raw, one_tap_energy, Cplx.abs2_eq.
    cbn [Cplx.Re Cplx.Im fst snd].
    replace (2 * 2 + 0 * 0) with (2 * 2) by ring.
    rewrite sqrt_square by lra.
    rewrite Cplx.divide_no_nan_nonzero by lra.
    apply Cplx.eq_intro; cbn; field.
  - exact (one_tap_raw (2, 0) 0%nat link0 0%nat).
  - intros H. apply (f_equal Cplx.Re) in H. cbn in H. lra.
Qed.

(** C1, amended: with [normalize_channel] false, whenever the channel model
    returns [(a, tau)], [__call__] returns, and for every batch example,
    antenna pair, time step [b] and lag [l] in [[l_min, l_max]], the tap
    returned is the sum over the paths [m] of [a_m] at instant [b] times
    [sinc (l - bandwidth * tau_m)]. *)
Theorem call_taps (S : Type) (st : State S) (batch_size : option Z)
    (a : PathGains) (tau : PathDelays) (s' : S) :
  _normalize_channel (self st) = false ->
  sampler_answer batch_size st = (Ok (a, tau), s') ->
  exists hm,
    fst (__call__ batch_size st) = Ok hm /\
    forall (n : nat) (k : Link) (b : nat) (l : Z),
      (_l_min (self st) <= l <= _l_max (self st))%Z ->
      h_at hm n k b (Z.to_nat (l - _l_min (self st))) =
      Csum (a_paths a) (fun m =>
        Cplx.mul (a_at a n k m b)
          (Cplx.of_real
             (sinc (IZR l - _bandwidth (self st) * tau_at tau n k m)))).
Proof.
  intros Hnorm Hans. eexists. split.
  - apply (call_returns _ _ _ _ _ Hans).
  - intros n k b l [Hl _]. rewrite Hnorm.
    change (Utils.cir_to_time_channel (_bandwidth (self st)) a tau
              (_l_min (self st)) (_l_max (self st)) false)
      with (raw_taps (_bandwidth (self st)) a tau (_l_min (self st))
              (_l_max (self st))).
    rewrite raw_taps_at. unfold Utils.tap.
    rewrite (lag_of_index (_l_min (self st)) l Hl). reflexivity.
Qed.

(** Two paths with delays [0] and [1 / 2], three lags, four instants. *)
Lemma call_taps_witness :
  exists hm,
    fst (__call__ (Some 1%Z) (mkState two_path_generator fresh_world)) = Ok hm /\
    forall (n : nat) (k : Link) (b : nat) (l : Z),
      (-1 <= l <= 1)%Z ->
      h_at hm n k b (Z.to_nat (l - -1)) =
      Csum 2 (fun m =>
        Cplx.mul (INR b, INR m)
          (Cplx.of_real (sinc (IZR l - 1 * (INR m / 2))))).
Proof.
  exact (call_taps nat (mkState two_path_generator fresh_world) (Some 1%Z)
           (two_path_gains 4) two_path_delays 1%nat eq_refl eq_refl).
Defined.

(** C7: with normalization disabled, the taps are linear in the path gains.
    Take two generators with the same bandwidth and the same lag window, both
    with [normalize_channel] false; when the channel model of the second
    returns the gains returned to the first, each multiplied by the complex
    constant [c], with the same delays, both calls return, the two tensors
    have the same shape, and every tap of the second is [c] times the same
    tap of the first. *)
Theorem call_linear (S : Type) (g1 g2 : GenerateTimeChannel S)
    (w1 w2 : World S) (batch_size1 batch_size2 : option Z)
    (a a' : PathGains) (tau : PathDelays) (s1 s2 : S) (c : C) :
  _normalize_channel g1 = false ->
  _normalize_channel g2 = false ->
  _bandwidth g2 = _bandwidth g1 ->
  _l_min g2 = _l_min g1 ->
  _l_max g2 = _l_max g1 ->
  sampler_answer batch_size1 (mkState g1 w1) = (Ok (a, tau), s1) ->
  sampler_answer batch_size2 (mkState g2 w2) = (Ok (a', tau), s2) ->
  a_dims a' = a_dims a ->
  a_paths a' = a_paths a ->
  a_time a' = a_time a ->
  (forall n k m b,
     (n < num_batch (a_dims a))%nat -> in_dims (a_dims a) k ->
     (m < a_paths a)%nat -> (b < a_time a)%nat ->
     a_at a' n k m b = Cplx.mul c (a_at a n k m b)) ->
  exists hm hm',
    fst (__call__ batch_size1 (mkState g1 w1)) = Ok hm /\
    fst (__call__ batch_size2 (mkState g2 w2)) = Ok hm' /\
    shape hm' = shape hm /\
    forall n k b i,
      (n < num_batch (h_dims hm))%nat -> in_dims (h_dims hm) k ->
      (b < h_time hm)%nat -> (i < h_lags hm)%nat ->
      h_at hm' n k b i = Cplx.mul c (h_at hm n k b i).
Proof.
  intros Hn1 Hn2 Hbw Hmin Hmax Hans1 Hans2 Hd Hp Ht Hscale.
  eexists. eexists. split; [apply (call_returns _ _ _ _ _ Hans1)|].
  split; [apply (call_returns _ _ _ _ _ Hans2)|].
  cbn [self]. rewrite Hn1, Hn2, Hbw, Hmin, Hmax.
  split.
  - unfold shape, Utils.cir_to_time_channel. cbn. rewrite Hd, Ht. reflexivity.
  - intros n k b i Hn Hk Hb _. cbn in Hn, Hk, Hb |- *.
    unfold Utils.tap. rewrite Hp, <- Csum_mul_l.
    apply Csum_ext. intros m Hm.
    rewrite (Hscale n k m b) by assumption.
    symmetry. apply Cplx.mul_assoc.
Qed.

(** The same one-tap generator on a channel of gain [2] and on a channel of
    gain [2i], the first gain multiplied by [i]. *)
Lemma call_linear_witness :
  exists hm hm',
    fst (__call__ (Some 1%Z)
           (mkState (one_tap_generator (2, 0) false) fresh_world)) = Ok hm /\
    fst (__call__ (Some 1%Z)
           (mkState (one_tap_generator (0, 2) false) fresh_world)) = Ok hm' /\
    shape hm' = shape hm /\
    forall n k b i,
      (n < num_batch (h_dims hm))%nat -> in_dims (h_dims hm) k ->
      (b < h_time hm)%nat -> (i < h_lags hm)%nat ->
      h_at hm' n k b i = Cplx.mul (0, 1) (h_at hm n k b i).
Proof.
  refine (call_linear nat (one_tap_generator (2, 0) false)
            (one_tap_generator (0, 2) false) fresh_world fresh_world
            (Some 1%Z) (Some 1%Z)
            (single_path_gains 1 1 (2, 0)) (single_path_gains 1 1 (0, 2))
            (single_path_delays 1) 1%nat 1%nat (0, 1)
            eq_refl eq_refl eq_refl eq_refl eq_refl eq_refl eq_refl
            eq_refl eq_refl eq_refl _).
  intros n k m b _ _ _ _. apply Cplx.eq_intro; cbn; ring.
Defined.

(** ** Normalization *)

(** The quantity of the spec's normalization invariant: for batch example
    [n], the average over the output time steps of the squared magnitudes of
    the taps summed across all lags and all antenna pairs. *)
Definition total_energy (h : TimeChannel) (n : nat) : R :=
  Rsum (h_time h) (fun b =>
    sum_links (h_dims h) (fun k =>
      Rsum (h_lags h) (fun i => Cplx.abs2 (h_at h n k b i))))
  / INR (h_time h).

Lemma Rsum_ext_const (n : nat) (f : nat -> R) (c : R) :
  (forall i, (i < n)%nat -> f i = c) -> Rsum n f = INR n * c.
Proof.
  intros H. rewrite <- Rsum_const. apply Rsum_ext. exact H.
Qed.

Lemma energy_of_normalized (h : TimeChannel) (n : nat) (k : Link) :
  Utils.energy h n k <> 0 -> Utils.energy (Utils.normalize h) n k = 1.
Proof.
  intros Hne.
  assert (Hpos : 0 < Utils.energy h n k).
  { pose proof (energy_nonneg h n k). lra. }
  assert (Hs : sqrt (Utils.energy h n k) <> 0).
  { pose proof (sqrt_lt_R0 _ Hpos). lra. }
  assert (Hss : sqrt (Utils.energy h n k) * sqrt (Utils.energy h n k) =
                Utils.energy h n k).
  { apply sqrt_sqrt. lra. }
  set (D := INR (num_rx_ant (h_dims h)) * INR (num_tx_ant (h_dims h)) *
            INR (h_time h)).
  set (X := Rsum (num_rx_ant (h_dims h)) (fun ra =>
              Rsum (num_tx_ant (h_dims h)) (fun ta =>
                Rsum (h_time h) (fun b =>
                  Rsum (h_lags h) (fun i =>
                    Cplx.abs2 (h_at h n (mkLink (rx k) ra (tx k) ta) b i)))))).
  assert (HE : Utils.energy h n k = X / D) by reflexivity.
  assert (Hsum :
    Rsum (num_rx_ant (h_dims h)) (fun ra =>
      Rsum (num_tx_ant (h_dims h)) (fun ta =>
        Rsum (h_time h) (fun b =>
          Rsum (h_lags h) (fun i =>
            Cplx.abs2
              (Cplx.divide_no_nan (h_at h n (mkLink (rx k) ra (tx k) ta) b i)
                 (sqrt (Utils.energy h n k))))))) =
    / Utils.energy h n k * X).
  { unfold X.
    rewrite <- Rsum_scal. apply Rsum_ext; intros ra _.
    rewrite <- Rsum_scal. apply Rsum_ext; intros ta _.
    rewrite <- Rsum_scal. apply Rsum_ext; intros b _.
    rewrite <- Rsum_scal. apply Rsum_ext; intros i _.
    rewrite Cplx.abs2_divide by exact Hs. rewrite Hss.
    unfold Rdiv. ring. }
  change (Rsum (num_rx_ant (h_dims h)) (fun ra =>
            Rsum (num_tx_ant (h_dims h)) (fun ta =>
              Rsum (h_time h) (fun b =>
                Rsum (h_lags h) (fun i =>
                  Cplx.abs2
                    (Cplx.divide_no_nan
                       (h_at h n (mkLink (rx k) ra (tx k) ta) b i)
                       (sqrt (Utils.energy h n k))))))) / D = 1).
  rewrite Hsum.
  replace (/ Utils.energy h n k * X / D) with (/ Utils.energy h n k * (X / D))
    by (unfold Rdiv; ring).
  rewrite <- HE. apply Rinv_l. exact Hne.
Qed.

(** ** A single path of constant gain and no delay *)

Lemma in_dims_antennas (d : Dims) (k : Link) (ra ta : nat) :
  in_dims d k -> (ra < num_rx_ant d)%nat -> (ta < num_tx_ant d)%nat ->
  in_dims d (mkLink (rx k) ra (tx k) ta).
Proof.
  intros [K1 [_ [K3 _]]] Hra Hta. unfold in_dims. cbn. auto.
Qed.

Lemma abs2_one : Cplx.abs2 Cplx.one = 1.
Proof. rewrite Cplx.abs2_eq. cbn. ring. Qed.


Lemma divide_one_by_its_norm :
  Cplx.divide_no_nan Cplx.one (sqrt (Cplx.abs2 Cplx.one)) = Cplx.one.
Proof. rewrite abs2_one, sqrt_1. apply Cplx.divide_no_nan_one. Qed.

Section SinglePath.

Variables (bandwidth : R) (a : PathGains) (tau : PathDelays) (l_min l_max : Z).
Variable g : C.

Hypothesis one_path : a_paths a = 1%nat.

Hypothesis constant_gain :
  forall n k b,
    (n < num_batch (a_dims a))%nat -> in_dims (a_dims a) k ->
    (b < a_time a)%nat ->
    a_at a n k 0%nat b = g.

Hypothesis no_delay :
  forall n k,
    (n < num_batch (a_dims a))%nat -> in_dims (a_dims a) k ->
    tau_at tau n k 0%nat = 0.

Lemma single_path_tap (n : nat) (k : Link) (b i : nat) :
  (n < num_batch (a_dims a))%nat -> in_dims (a_dims a) k ->
  (b < a_time a)%nat ->
  Utils.tap bandwidth a tau l_min n k b i =
  if Z.eq_dec (Z.of_nat i) (- l_min) then g else Cplx.zero.
Proof.
  intros Hn Hk Hb.
  rewrite tap_one_path by exact one_path.
  rewrite constant_gain, no_delay by assumption.
  replace (IZR (Utils.lag_of l_min i) - bandwidth * 0)
    with (IZR (Utils.lag_of l_min i)) by ring.
  unfold Utils.lag_of.
  destruct (Z.eq_dec (Z.of_nat i) (- l_min)) as [E|E].
  - replace (l_min + Z.of_nat i)%Z with 0%Z by lia.
    rewrite sinc_0. apply Cplx.mul_one_r.
  - rewrite sinc_integer by lia. apply Cplx.mul_zero_r.
Qed.

(** With the lag [0] inside the window, the energy of every link is the
    squared magnitude of the gain. *)
Lemma single_path_energy (n : nat) (k : Link) (b0 i0 : nat) :
  (n < num_batch (a_dims a))%nat -> in_dims (a_dims a) k ->
  (b0 < a_time a)%nat ->
  (i0 < Utils.num_lags l_min l_max)%nat ->
  Z.of_nat i0 = (- l_min)%Z ->
  Utils.energy (raw_taps bandwidth a tau l_min l_max) n k = Cplx.abs2 g.
Proof.
  intros Hn Hk Hb0 Hi0 E0.
  unfold Utils.energy.
  change (h_time (raw_taps bandwidth a tau l_min l_max)) with (a_time a).
  change (h_dims (raw_taps bandwidth a tau l_min l_max)) with (a_dims a).
  change (h_lags (raw_taps bandwidth a tau l_min l_max))
    with (Utils.num_lags l_min l_max).
  rewrite (Rsum_ext_const _ _ (INR (num_tx_ant (a_dims a)) *
                               (INR (a_time a) * Cplx.abs2 g))).
  - destruct Hk as [_ [K2 [_ K4]]].
    field. repeat split; apply not_0_INR; lia.
  - intros ra Hra. apply Rsum_ext_const. intros ta Hta.
    apply Rsum_ext_const. intros b Hb.
    pose proof (in_dims_antennas (a_dims a) k ra ta Hk Hra Hta) as Hk'.
    rewrite (Rsum_single _ i0); [|exact Hi0|].
    + rewrite raw_taps_at, single_path_tap by assumption.
      destruct (Z.eq_dec (Z.of_nat i0) (- l_min)); [reflexivity|contradiction].
    + intros i Hi Hne. rewrite raw_taps_at, single_path_tap by assumption.
      destruct (Z.eq_dec (Z.of_nat i) (- l_min)); [lia|apply Cplx.abs2_zero].
Qed.


(** The tap at the lag [0] is the gain, divided by its magnitude when the
    channel is normalized. *)
Lemma single_path_main_tap (normalize : bool) (n : nat) (k : Link) (b i : nat) :
  (n < num_batch (a_dims a))%nat -> in_dims (a_dims a) k ->
  (b < a_time a)%nat -> (i < Utils.num_lags l_min l_max)%nat ->
  Z.of_nat i = (- l_min)%Z ->
  h_at (Utils.cir_to_time_channel bandwidth a tau l_min l_max normalize) n k b i =
  if normalize then Cplx.divide_no_nan g (sqrt (Cplx.abs2 g)) else g.
Proof.
  intros Hn Hk Hb Hi E.
  assert (Htap : Utils.tap bandwidth a tau l_min n k b i = g).
  { rewrite single_path_tap by assumption.
    destruct (Z.eq_dec (Z.of_nat i) (- l_min)); [reflexivity|contradiction]. }
  destruct normalize.
  - rewrite normalized_taps_at, Htap.
    rewrite (single_path_energy n k b i) by assumption. reflexivity.
  - change (Utils.cir_to_time_channel bandwidth a tau l_min l_max false)
      with (raw_taps bandwidth a tau l_min l_max).
    rewrite raw_taps_at. exact Htap.
Qed.

End SinglePath.

(** One receiver with [num_rx_ant] antennas and a single-antenna transmitter:
    every antenna pair carries one path of gain [g] and delay [0]. *)
Definition antenna_array_gains (num_rx_ant num_time_steps : nat) (g : C)
  : PathGains :=
  {| a_dims := mkDims 1 1 num_rx_ant 1 1;
     a_paths := 1;
     a_time := num_time_steps;
     a_at := fun _ _ _ _ => g |}.

Definition antenna_array_delays (num_rx_ant : nat) : PathDelays :=
  {| tau_dims := mkDims 1 1 num_rx_ant 1 1;
     tau_paths := 1;
     tau_at := fun _ _ _ => 0 |}.

Definition antenna_array_model (num_rx_ant : nat) (g : C) : ChannelModel nat :=
  fun _ num_time_steps _ calls =>
    (Ok (antenna_array_gains num_rx_ant (Z.to_nat num_time_steps) g,
         antenna_array_delays num_rx_ant),
     Datatypes.S calls).

(** Two receive antennas of unit gain, the single lag [0], one time sample,
    bandwidth [1], normalizing. *)
Definition two_antenna_generator : GenerateTimeChannel nat :=
  {| _cir_sampler := antenna_array_model 2 Cplx.one;
     _l_min := 0%Z;
     _l_max := 0%Z;
     _l_tot := 1%Z;
     _bandwidth := 1;
     _num_time_steps := 1%Z;
     _normalize_channel := true |}.

(** Two receive antennas of gain [g], lags [-2 .. 2], four time samples,
    normalizing. *)
Definition array_example_generator (g : C) : GenerateTimeChannel nat :=
  {| _cir_sampler := antenna_array_model 2 g;
     _l_min := (-2)%Z;
     _l_max := 2%Z;
     _l_tot := 5%Z;
     _bandwidth := 1000000;
     _num_time_steps := 4%Z;
     _normalize_channel := true |}.

Lemma two_antenna_raw_total :
  total_energy
    (raw_taps 1 (antenna_array_gains 2 1 Cplx.one) (antenna_array_delays 2) 0 0)
    0%nat = 2.
Proof.
  unfold total_energy, sum_links. cbn -[Utils.tap].
  change (Pos.to_nat 1) with 1%nat. cbn [Rsum].
  rewrite !(single_path_tap 1 (antenna_array_gains 2 1 Cplx.one)
              (antenna_array_delays 2) 0 Cplx.one eq_refl
              (fun _ _ _ _ _ _ => eq_refl) (fun _ _ _ _ => eq_refl))
    by (unfold in_dims; cbn; lia).
  cbn. rewrite abs2_one. field.
Qed.

Lemma two_antenna_normalized_total :
  total_energy
    (Utils.cir_to_time_channel 1 (antenna_array_gains 2 1 Cplx.one)
       (antenna_array_delays 2) 0 0 true)
    0%nat = 2.
Proof.
  assert (Htap : forall ra,
            (ra < 2)%nat ->
            h_at (Utils.cir_to_time_channel 1 (antenna_array_gains 2 1 Cplx.one)
                    (antenna_array_delays 2) 0 0 true)
              0%nat (mkLink 0 ra 0 0) 0%nat 0%nat = Cplx.one).
  { intros ra Hra.
    rewrite (single_path_main_tap 1 (antenna_array_gains 2 1 Cplx.one)
               (antenna_array_delays 2) 0 0 Cplx.one eq_refl
               (fun _ _ _ _ _ _ => eq_refl) (fun _ _ _ _ => eq_refl) true)
      by (try reflexivity; unfold in_dims; cbn; lia).
    apply divide_one_by_its_norm. }
  unfold total_energy, sum_links.
  destruct (taps_dims 1 (antenna_array_gains 2 1 Cplx.one)
              (antenna_array_delays 2) 0 0 true) as [Hd [Ht Hl]].
  rewrite Hd, Ht, Hl.
  change (Utils.num_lags 0 0) with 1%nat.
  cbn [antenna_array_gains a_dims a_time num_rx num_rx_ant num_tx num_tx_ant Rsum].
  rewrite (Htap 0%nat), (Htap 1%nat) by lia.
  rewrite abs2_one. cbn. field.
Qed.

(** C5, as the spec words it, fails with several antennas.  With two receive
    antennas, each reached by one path of unit gain and delay [0], and the
    single lag [0], the channel is not degenerate, and in the tensor returned
    the energy averaged over the time steps and summed across all lags and
    all antenna pairs is [2]: each antenna pair keeps its unit tap. *)
Lemma normalized_total_energy_is_not_one :
  exists hm,
    fst (__call__ (Some 1%Z) (mkState two_antenna_generator fresh_world)) = Ok hm /\
    total_energy
      (raw_taps 1 (antenna_array_gains 2 1 Cplx.one) (antenna_array_delays 2) 0 0)
      0%nat <> 0 /\
    total_energy hm 0%nat = 2 /\
    total_energy hm 0%nat <> 1.
Proof.
  eexists. split; [|split; [|split]].
  - apply (call_returns (Some 1%Z) (mkState two_antenna_generator fresh_world)
             (antenna_array_gains 2 1 Cplx.one) (antenna_array_delays 2) 1%nat).
    reflexivity.
  - rewrite two_antenna_raw_total. lra.
  - exact two_antenna_normalized_total.
  - cbn [two_antenna_generator _bandwidth _l_min _l_max _normalize_channel self].
    rewrite two_antenna_normalized_total. lra.
Qed.

(** C5, amended: when [normalize_channel] is true, for each batch example,
    receiver and transmitter whose taps have non-zero energy, in the tensor
    [__call__] returns the mean over the receive antennas, the transmit
    antennas and the time steps of the squared magnitudes of the taps summed
    across all lags is [1]. *)
Theorem call_normalized (S : Type) (st : State S) (batch_size : option Z)
    (a : PathGains) (tau : PathDelays) (s' : S) (n : nat) (k : Link) :
  _normalize_channel (self st) = true ->
  sampler_answer batch_size st = (Ok (a, tau), s') ->
  Utils.energy
    (raw_taps (_bandwidth (self st)) a tau (_l_min (self st))
       (_l_max (self st))) n k <> 0 ->
  exists hm,
    fst (__call__ batch_size st) = Ok hm /\
    Rsum (num_rx_ant (h_dims hm)) (fun ra =>
      Rsum (num_tx_ant (h_dims hm)) (fun ta =>
        Rsum (h_time hm) (fun b =>
          Rsum (h_lags hm) (fun i =>
            Cplx.abs2 (h_at hm n (mkLink (rx k) ra (tx k) ta) b i)))))
    / (INR (num_rx_ant (h_dims hm)) * INR (num_tx_ant (h_dims hm)) *
       INR (h_time hm)) = 1.
Proof.
  intros Hnorm Hans Hne.
  eexists. split; [apply (call_returns _ _ _ _ _ Hans)|].
  rewrite Hnorm.
  exact (energy_of_normalized _ n k Hne).
Qed.

(** Two receive antennas of gain [2], five lags, eight time steps: the
    energy of the link is [4] before the rescaling. *)
Lemma call_normalized_witness :
  exists hm,
    fst (__call__ (Some 1%Z)
           (mkState (array_example_generator (2, 0)) fresh_world)) = Ok hm /\
    Rsum (num_rx_ant (h_dims hm)) (fun ra =>
      Rsum (num_tx_ant (h_dims hm)) (fun ta =>
        Rsum (h_time hm) (fun b =>
          Rsum (h_lags hm) (fun i =>
            Cplx.abs2 (h_at hm 0%nat (mkLink 0 ra 0 ta) b i)))))
    / (INR (num_rx_ant (h_dims hm)) * INR (num_tx_ant (h_dims hm)) *
       INR (h_time hm)) = 1.
Proof.
  refine (call_normalized nat
            (mkState (array_example_generator (2, 0)) fresh_world) (Some 1%Z)
            (antenna_array_gains 2 8 (2, 0)) (antenna_array_delays 2) 1%nat
            0%nat link0 eq_refl eq_refl _).
  cbn [array_example_generator _bandwidth _l_min _l_max self].
  rewrite (single_path_energy 1000000 (antenna_array_gains 2 8 (2, 0))
             (antenna_array_delays 2) (-2) 2 (2, 0) eq_refl
             (fun _ _ _ _ _ _ => eq_refl) (fun _ _ _ _ => eq_refl)
             0%nat link0 0%nat 2%nat);
    try (unfold in_dims, link0; cbn; lia).
  rewrite Cplx.abs2_eq. cbn. lra.
Defined.



(** ** When the channel model raises *)

(** A channel model that raises on every call, and counts its calls. *)
Definition failing_model : ChannelModel nat :=
  fun _ _ _ calls => (Raise ModelError, Datatypes.S calls).

(** A channel model that raises on its first call and answers with a single
    path of unit gain from then on. *)
Definition flaky_model : ChannelModel nat :=
  fun batch_size num_time_steps bandwidth calls =>
    match calls with
    | O => (Raise ModelError, 1%nat)
    | Datatypes.S _ =>
        single_path_model Cplx.one batch_size num_time_steps bandwidth calls
    end.

Definition generator_on (channel_model : ChannelModel nat)
  : GenerateTimeChannel nat :=
  {| _cir_sampler := channel_model;
     _l_min := (-2)%Z;
     _l_max := 2%Z;
     _l_tot := 5%Z;
     _bandwidth := 1000000;
     _num_time_steps := 4%Z;
     _normalize_channel := false |}.

(** X1: an exception of the channel model goes through [__call__] as it is.
    When the channel model raises [e], [__call__] raises [e]; the helper
    [cir_to_time_channel] is not called (the only new event is the call of the
    channel model), the object is untouched, and the channel model is left in
    the state in which it raised. *)
Theorem call_propagates_exception (S : Type) (st : State S)
    (batch_size : option Z) (e : Exception) (s' : S) :
  _cir_sampler (self st) batch_size
    (_num_time_steps (self st) + _l_tot (self st) - 1)%Z
    (_bandwidth (self st)) (model_state (world st)) = (Raise e, s') ->
  __call__ batch_size st =
  (Raise e,
   {| self := self st;
      world :=
        {| model_state := s';
           trace := trace (world st) ++
                    [Sampled batch_size
                       (_num_time_steps (self st) + _l_tot (self st) - 1)%Z
                       (_bandwidth (self st))] |} |}).
Proof.
  intros H. rewrite call_eq. cbn zeta.
  unfold sampler_answer, requested_time_steps. rewrite H. reflexivity.
Qed.

Lemma call_propagates_exception_witness :
  __call__ None (mkState (generator_on failing_model) fresh_world) =
  (Raise ModelError,
   {| self := generator_on failing_model;
      world := {| model_state := 1%nat;
                  trace := [Sampled None 8 1000000] |} |}).
Proof.
  exact (call_propagates_exception nat
           (mkState (generator_on failing_model) fresh_world) None ModelError
           1%nat eq_refl).
Defined.

(** ** A generator's life and the life of its channel model *)

(** The channel model called on its own, once per batch size, always for
    [num_time_steps] instants at [bandwidth]. *)
Fixpoint run_model {S : Type} (channel_model : ChannelModel S)
    (num_time_steps : Z) (bandwidth : R) (batch_sizes : list (option Z))
    (s : S) : list (Result (PathGains * PathDelays)) * S :=
  match batch_sizes with
  | [] => ([], s)
  | batch_size :: rest =>
      let (r, s1) := channel_model batch_size num_time_steps bandwidth s in
      let (rs, s2) := run_model channel_model num_time_steps bandwidth rest s1 in
      (r :: rs, s2)
  end.

(** What [__call__] makes of one answer of the channel model. *)
Definition taps_of {S : Type} (g : GenerateTimeChannel S)
    (r : Result (PathGains * PathDelays)) : Result TimeChannel :=
  match r with
  | Ok (h, tau) =>
      Ok (Utils.cir_to_time_channel (_bandwidth g) h tau (_l_min g) (_l_max g)
            (_normalize_channel g))
  | Raise e => Raise e
  end.

Lemma call_follows_model {S : Type} (batch_size : option Z) (st : State S) :
  fst (__call__ batch_size st) =
    taps_of (self st) (fst (sampler_answer batch_size st)) /\
  model_state (world (snd (__call__ batch_size st))) =
    snd (sampler_answer batch_size st).
Proof.
  rewrite call_eq. cbn zeta.
  destruct (sampler_answer batch_size st) as [[[h tau]|e] s']; split; reflexivity.
Qed.

(** X2: the generator keeps no state of its own between calls.  Over any
    sequence of calls, what the calls return is what the channel model
    answers when called on its own with the same batch sizes, each answer
    turned into taps and each exception passed on, and the channel model ends
    in the same state: a call that raised changes nothing for the calls that
    follow. *)
Theorem run_calls_follows_model (S : Type) (batch_sizes : list (option Z))
    (st : State S) :
  let g := self st in
  let life :=
    run_model (_cir_sampler g) (_num_time_steps g + _l_tot g - 1)%Z
      (_bandwidth g) batch_sizes (model_state (world st)) in
  fst (run_calls batch_sizes st) = map (taps_of g) (fst life) /\
  model_state (world (snd (run_calls batch_sizes st))) = snd life.
Proof.
  cbn zeta. revert st.
  induction batch_sizes as [|batch_size rest IH]; intros st.
  - split; reflexivity.
  - cbn [run_calls run_model].
    destruct (call_follows_model batch_size st) as [Hr Hs].
    pose proof (call_self batch_size st) as Hself.
    destruct (__call__ batch_size st) as [r st1].
    cbn [fst snd] in Hr, Hs, Hself.
    unfold sampler_answer, requested_time_steps in Hr, Hs.
    destruct (_cir_sampler (self st) batch_size
                (_num_time_steps (self st) + _l_tot (self st) - 1)%Z
                (_bandwidth (self st)) (model_state (world st))) as [r0 s1].
    cbn [fst snd] in Hr, Hs.
    destruct (IH st1) as [IHr IHs]. rewrite Hself, Hs in IHr, IHs.
    destruct (run_calls rest st1) as [rs st2].
    destruct (run_model (_cir_sampler (self st))
                (_num_time_steps (self st) + _l_tot (self st) - 1)%Z
                (_bandwidth (self st)) rest s1) as [rs0 s2].
    cbn [fst snd] in IHr, IHs |- *.
    split; [|exact IHs].
    cbn [map]. rewrite Hr, IHr. reflexivity.
Qed.

(** X3: a generator whose channel model raised is as good as new.  When the
    channel model raises on a first call and returns [(a, tau)] on the call
    that follows, that second call returns the taps of [(a, tau)], the same
    tensor a first call answered with [(a, tau)] would have returned. *)
Theorem call_after_exception (S : Type) (st : State S)
    (batch_size1 batch_size2 : option Z) (e : Exception) (s1 s2 : S)
    (a : PathGains) (tau : PathDelays) :
  let g := self st in
  let n := (_num_time_steps g + _l_tot g - 1)%Z in
  _cir_sampler g batch_size1 n (_bandwidth g) (model_state (world st)) =
    (Raise e, s1) ->
  _cir_sampler g batch_size2 n (_bandwidth g) s1 = (Ok (a, tau), s2) ->
  fst (run_calls [batch_size1; batch_size2] st) =
  [ Raise e;
    Ok (Utils.cir_to_time_channel (_bandwidth g) a tau (_l_min g) (_l_max g)
          (_normalize_channel g)) ].
Proof.
  cbn zeta. intros H1 H2. cbn [run_calls].
  rewrite call_eq. cbn zeta. unfold sampler_answer, requested_time_steps.
  rewrite H1. cbn [self world model_state].
  rewrite call_eq. cbn zeta. unfold sampler_answer, requested_time_steps.
  cbn [self world model_state]. rewrite H2. reflexivity.
Qed.

Lemma call_after_exception_witness :
  fst (run_calls [None; Some 1%Z] (mkState (generator_on flaky_model) fresh_world)) =
  [ Raise ModelError;
    Ok (Utils.cir_to_time_channel 1000000 (single_path_gains 1 8 Cplx.one)
          (single_path_delays 1) (-2) 2 false) ].
Proof.
  exact (call_after_exception nat
           (mkState (generator_on flaky_model) fresh_world) None (Some 1%Z)
           ModelError 1%nat 2%nat (single_path_gains 1 8 Cplx.one)
           (single_path_delays 1) eq_refl eq_refl).
Defined.

(** ** A window wider than the block, the wrong way round *)

(** X4: [__call__] does not guard the number of time steps it asks for.  For
    a generator constructed with [num_time_samples <= l_min - l_max], the
    call goes ahead and the channel model is asked for
    [num_time_samples + l_max - l_min] time steps, a number that is zero or
    negative. *)
Theorem call_requests_without_guard (S : Type) (channel_model : ChannelModel S)
    (bandwidth : R) (num_time_samples l_min l_max : Z)
    (normalize_channel : bool) (w : World S) (batch_size : option Z) :
  (num_time_samples <= l_min - l_max)%Z ->
  exists n rest,
    (n <= 0)%Z /\
    n = (num_time_samples + l_max - l_min)%Z /\
    match __init__ channel_model bandwidth num_time_samples l_min l_max
            normalize_channel w with
    | (Ok g, w') =>
        trace (world (snd (__call__ batch_size (mkState g w')))) =
        trace w ++ Sampled batch_size n bandwidth :: rest
    | (Raise _, _) => False
    end.
Proof.
  intros Hwide.
  rewrite init_eq.
  destruct (call_trace batch_size
              (mkState (mkGenerateTimeChannel channel_model l_min l_max
                          (l_max - l_min + 1)%Z bandwidth num_time_samples
                          normalize_channel) w)) as [rest [Ht _]].
  exists (num_time_samples + l_max - l_min)%Z, rest.
  split; [lia|]. split; [reflexivity|].
  rewrite Ht. unfold requested_time_steps. cbn.
  replace (num_time_samples + (l_max - l_min + 1) - 1)%Z
    with (num_time_samples + l_max - l_min)%Z by lia.
  reflexivity.
Qed.

(** One time sample, [l_min = 2], [l_max = 0]: the channel model is asked for
    [-1] time steps. *)
Lemma call_requests_without_guard_witness :
  exists n rest,
    (n <= 0)%Z /\
    n = (-1)%Z /\
    trace (world (snd (__call__ (Some 1%Z)
                         (mkState (mkGenerateTimeChannel
                                     (single_path_model Cplx.one) 2 0 (-1)
                                     1 1 false)
                                  fresh_world)))) =
    [] ++ Sampled (Some 1%Z) n 1 :: rest.
Proof.
  exact (call_requests_without_guard nat (single_path_model Cplx.one) 1 1 2 0
           false fresh_world (Some 1%Z) ltac:(lia)).
Defined.
